(** * secrets_template.h: the device configuration header

    The header is a flat list of namespace-scope variable definitions with
    literal initialisers.  This development embeds

    - the ten literals, under the names the header gives them;
    - the header itself, as the list of its lines (one directive, ten
      variable definitions with their declared C++ types);
    - the fragment of C++ needed to run it: static initialisation of the
      definitions into a store, reads of the store, and the two kinds of
      statement an including sketch could aim at the bindings (assignment
      and a store through a pointer), with the const rules that accept or
      reject them. *)

From Stdlib Require Import ZArith List String Ascii Bool Lia.
From Stdlib Require Import Permutation.
Import ListNotations.
Open Scope string_scope.
Open Scope Z_scope.

(** ** The literals of the header *)

Definition hostname : string := "espSolarChargerOTA".
Definition mqtt_user : string := "mqtt_user".
Definition mqtt_pass : string := "mqtt_password".
Definition mqtt_server : string := "192.168.1.15".
Definition mqtt_port : Z := 1883.
Definition wifi_ssid : string := "wifi_network".
Definition wifi_pass : string := "wifi_passsword".
Definition mqtt_topic : string := "epever/state".
Definition ota_pass : string := "guessme".
Definition mqtt_deepsleep : string := "epever/deepsleep".

(** ** Declared types

    Only two shapes of type occur: [int] and pointer to [char], each level
    with or without [const].  [const char*] is a pointer that is not const
    to characters that are; [const int] is a const integer. *)

Inductive ctype : Type :=
| Tint (is_const : bool)
| Tcharptr (chars_const : bool) (ptr_const : bool).

Definition const_char_ptr : ctype := Tcharptr true false.
Definition const_int : ctype := Tint true.

(** The qualifier of the declared object itself: it decides whether the
    binding may be assigned to. *)
Definition top_const (t : ctype) : bool :=
  match t with
  | Tint c => c
  | Tcharptr _ c => c
  end.

Definition is_charptr (t : ctype) : bool :=
  match t with
  | Tcharptr _ _ => true
  | Tint _ => false
  end.

(** ** The header as data *)

Inductive literal : Type :=
| LStr (s : string)
| LInt (z : Z).

Record var_def : Type := VarDefOf {
  vd_type : ctype;
  vd_name : string;
  vd_init : literal
}.

Inductive item : Type :=
| Directive (name : string) (arg : string)
| VarDef (d : var_def).

Definition secrets_template_h : list item :=
  [ Directive "pragma" "once";
    VarDef (VarDefOf const_char_ptr "hostname" (LStr hostname));
    VarDef (VarDefOf const_char_ptr "mqtt_user" (LStr mqtt_user));
    VarDef (VarDefOf const_char_ptr "mqtt_pass" (LStr mqtt_pass));
    VarDef (VarDefOf const_char_ptr "mqtt_server" (LStr mqtt_server));
    VarDef (VarDefOf const_int "mqtt_port" (LInt mqtt_port));
    VarDef (VarDefOf const_char_ptr "wifi_ssid" (LStr wifi_ssid));
    VarDef (VarDefOf const_char_ptr "wifi_pass" (LStr wifi_pass));
    VarDef (VarDefOf const_char_ptr "mqtt_topic" (LStr mqtt_topic));
    VarDef (VarDefOf const_char_ptr "ota_pass" (LStr ota_pass));
    VarDef (VarDefOf const_char_ptr "mqtt_deepsleep" (LStr mqtt_deepsleep)) ].

Fixpoint var_defs (h : list item) : list var_def :=
  match h with
  | [] => []
  | VarDef d :: h' => d :: var_defs h'
  | Directive _ _ :: h' => var_defs h'
  end.

Fixpoint directives (h : list item) : list (string * string) :=
  match h with
  | [] => []
  | Directive n a :: h' => (n, a) :: directives h'
  | VarDef _ :: h' => directives h'
  end.

Definition declared_names (h : list item) : list string :=
  map vd_name (var_defs h).

Definition string_names (h : list item) : list string :=
  map vd_name (filter (fun d => is_charptr (vd_type d)) (var_defs h)).

Definition int_names (h : list item) : list string :=
  map vd_name (filter (fun d => negb (is_charptr (vd_type d))) (var_defs h)).

(** Preprocessor directives that select text conditionally. *)
Definition conditional_directive (name : string) : bool :=
  existsb (String.eqb name) ["if"; "ifdef"; "ifndef"; "elif"; "else"; "endif"].

Definition has_pragma_once (h : list item) : bool :=
  existsb (fun d => String.eqb (fst d) "pragma" && String.eqb (snd d) "once")
          (directives h).

(** ** Builds

    What a build may vary without touching the file: the width of [int]
    (at least 16 bits in every C++ implementation) and how many further
    times, beyond the first, the translation unit includes the header. *)

Record build : Type := Build {
  int_bits : Z;
  extra_includes : nat
}.

Definition esp_build : build := Build 32 0.

(** The text of [n] inclusions: a file carrying [#pragma once] contributes
    its text to the first inclusion only. *)
Fixpoint include_times (n : nat) (h : list item) : list item :=
  match n with
  | O => []
  | S n' => (h ++ (if has_pragma_once h then [] else include_times n' h))%list
  end.

Definition translation_unit (b : build) : list item :=
  include_times (S (extra_includes b)) secrets_template_h.

(** ** Values, bindings and the store *)

Inductive value : Type :=
| VInt (z : Z)
| VPtr (p : option nat).

Record binding : Type := Bind {
  b_type : ctype;
  b_value : value
}.

(** [env] holds the namespace-scope objects in order of definition;
    [rodata] holds the character arrays of the string literals, each with
    its terminating NUL.  A non-null pointer is the index of the array it
    points to the start of. *)
Record state : Type := State {
  env : list (string * binding);
  rodata : list string
}.

Definition empty_state : state := State [] [].

Fixpoint lookup (x : string) (e : list (string * binding)) : option binding :=
  match e with
  | [] => None
  | (y, bd) :: e' => if String.eqb x y then Some bd else lookup x e'
  end.

Fixpoint update (x : string) (bd : binding) (e : list (string * binding))
  : list (string * binding) :=
  match e with
  | [] => []
  | (y, old) :: e' =>
      if String.eqb x y then (y, bd) :: e' else (y, old) :: update x bd e'
  end.

Definition literal_array (s : string) : string := s ++ String zero "".

(** The characters of a NUL-terminated array up to the terminator. *)
Fixpoint until_nul (a : string) : option string :=
  match a with
  | EmptyString => None
  | String c a' =>
      if Ascii.eqb c zero then Some ""
      else option_map (String c) (until_nul a')
  end.

(** ** Errors *)

Inductive error : Type :=
| Redefinition (x : string)
| BadInitializer (x : string)
| Undeclared (x : string)
| AssignToConst (x : string)
| StoreThroughConst (x : string)
| NotAPointer (x : string)
| NullDereference (x : string)
| OutOfBounds (x : string).

Inductive result (A : Type) : Type :=
| Ok (a : A)
| Err (e : error).
Arguments Ok {A} a.
Arguments Err {A} e.

Definition bind {A B : Type} (r : result A) (k : A -> result B) : result B :=
  match r with
  | Ok a => k a
  | Err e => Err e
  end.

Notation "x <- r ;; k" := (bind r (fun x => k))
  (at level 61, r at next level, right associativity).

Definition is_ok {A : Type} (r : result A) : bool :=
  match r with
  | Ok _ => true
  | Err _ => false
  end.

(** ** Static initialisation *)

(** Conversion to a signed integer of [w] bits. *)
Definition wrap_signed (w z : Z) : Z :=
  (z + 2 ^ (w - 1)) mod 2 ^ w - 2 ^ (w - 1).

(** The value a literal gives an object of type [t], and the literal
    storage afterwards.  A string literal is an array of const char: it
    initialises a pointer to const char only.  The integer literal 0 is the
    null pointer constant. *)
Definition convert (b : build) (x : string) (t : ctype) (l : literal)
    (ro : list string) : result (value * list string) :=
  match t, l with
  | Tint _, LInt z => Ok (VInt (wrap_signed (int_bits b) z), ro)
  | Tcharptr true _, LStr s =>
      Ok (VPtr (Some (List.length ro)), (ro ++ [literal_array s])%list)
  | Tcharptr _ _, LInt Z0 => Ok (VPtr None, ro)
  | _, _ => Err (BadInitializer x)
  end.

Definition define_var (b : build) (d : var_def) (st : state) : result state :=
  match lookup (vd_name d) (env st) with
  | Some _ => Err (Redefinition (vd_name d))
  | None =>
      r <- convert b (vd_name d) (vd_type d) (vd_init d) (rodata st) ;;
      Ok (State (env st ++ [(vd_name d, Bind (vd_type d) (fst r))])%list (snd r))
  end.

Fixpoint define_all (b : build) (ds : list var_def) (st : state)
  : result state :=
  match ds with
  | [] => Ok st
  | d :: ds' => st' <- define_var b d st ;; define_all b ds' st'
  end.

Definition static_init (b : build) : result state :=
  define_all b (var_defs (translation_unit b)) empty_state.

(** ** Reads *)

Definition read (x : string) (st : state) : option value :=
  option_map b_value (lookup x (env st)).

Definition read_int (x : string) (st : state) : option Z :=
  match read x st with
  | Some (VInt z) => Some z
  | _ => None
  end.

Definition read_cstring (x : string) (st : state) : option string :=
  match read x st with
  | Some (VPtr (Some i)) =>
      match nth_error (rodata st) i with
      | Some a => until_nul a
      | None => None
      end
  | _ => None
  end.

Definition non_null (x : string) (st : state) : bool :=
  match read x st with
  | Some (VPtr None) => false
  | Some _ => true
  | None => false
  end.



(** ** Statements of an including sketch

    [Assign x l] is [x = l;] and [StoreChar x i c] is [x[i] = c;]. *)

Inductive stmt : Type :=
| Assign (x : string) (rhs : literal)
| StoreChar (x : string) (i : nat) (c : ascii).

Fixpoint set_char (i : nat) (c : ascii) (a : string) : option string :=
  match a, i with
  | EmptyString, _ => None
  | String _ a', O => Some (String c a')
  | String d a', S i' => option_map (String d) (set_char i' c a')
  end.

Fixpoint set_nth {A : Type} (i : nat) (a : A) (l : list A) : list A :=
  match l, i with
  | [], _ => []
  | _ :: l', O => a :: l'
  | y :: l', S i' => y :: set_nth i' a l'
  end.

Definition exec (b : build) (s : stmt) (st : state) : result state :=
  match s with
  | Assign x rhs =>
      match lookup x (env st) with
      | None => Err (Undeclared x)
      | Some bd =>
          if top_const (b_type bd) then Err (AssignToConst x)
          else
            r <- convert b x (b_type bd) rhs (rodata st) ;;
            Ok (State (update x (Bind (b_type bd) (fst r)) (env st)) (snd r))
      end
  | StoreChar x i c =>
      match lookup x (env st) with
      | None => Err (Undeclared x)
      | Some bd =>
          match b_type bd, b_value bd with
          | Tcharptr true _, _ => Err (StoreThroughConst x)
          | Tcharptr false _, VPtr (Some j) =>
              match nth_error (rodata st) j with
              | None => Err (OutOfBounds x)
              | Some a =>
                  match set_char i c a with
                  | None => Err (OutOfBounds x)
                  | Some a' => Ok (State (env st) (set_nth j a' (rodata st)))
                  end
              end
          | Tcharptr false _, VPtr None => Err (NullDereference x)
          | _, _ => Err (NotAPointer x)
          end
      end
  end.

(** A sequence of statements, stopping at the first one rejected. *)
Fixpoint exec_all (b : build) (p : list stmt) (st : state) : result state :=
  match p with
  | [] => Ok st
  | s :: p' => st' <- exec b s st ;; exec_all b p' st'
  end.

(** ** Predicates on strings *)

Definition code (c : ascii) : Z := Z.of_N (N_of_ascii c).

Fixpoint string_forall (p : ascii -> bool) (s : string) : bool :=
  match s with
  | EmptyString => true
  | String c s' => p c && string_forall p s'
  end.

Fixpoint contains (c : ascii) (s : string) : bool :=
  match s with
  | EmptyString => false
  | String d s' => Ascii.eqb c d || contains c s'
  end.

(** Printable ASCII is 0x20 to 0x7E; the control characters are those below
    0x20 and DEL; whitespace is the space and the five characters HT, LF,
    VT, FF and CR. *)
Definition printable (c : ascii) : bool :=
  (32 <=? code c) && (code c <=? 126).

Definition control (c : ascii) : bool :=
  (code c <? 32) || (code c =? 127).

Definition whitespace (c : ascii) : bool :=
  (code c =? 32) || ((9 <=? code c) && (code c <=? 13)).

Definition plain_char (c : ascii) : bool :=
  printable c && negb (whitespace c) && negb (control c).

(** *** Dotted decimal *)

Fixpoint split_on (sep : ascii) (s : string) : list string :=
  match s with
  | EmptyString => [EmptyString]
  | String c s' =>
      let r := split_on sep s' in
      if Ascii.eqb c sep then EmptyString :: r
      else match r with
           | [] => [String c EmptyString]
           | hd :: tl => String c hd :: tl
           end
  end.

Fixpoint join (sep : ascii) (l : list string) : string :=
  match l with
  | [] => EmptyString
  | [x] => x
  | x :: l' => x ++ String sep (join sep l')
  end.

Definition digit_value (c : ascii) : option Z :=
  if (48 <=? code c) && (code c <=? 57) then Some (code c - 48) else None.

Fixpoint parse_dec_from (acc : Z) (s : string) : option Z :=
  match s with
  | EmptyString => Some acc
  | String c s' =>
      match digit_value c with
      | Some d => parse_dec_from (10 * acc + d) s'
      | None => None
      end
  end.

Definition parse_dec (s : string) : option Z :=
  match s with
  | EmptyString => None
  | _ => parse_dec_from 0 s
  end.

Definition octet (s : string) : bool :=
  match parse_dec s with
  | Some n => (0 <=? n) && (n <=? 255)
  | None => false
  end.

Definition is_ipv4_literal (s : string) : bool :=
  (List.length (split_on "." s) =? 4)%nat && forallb octet (split_on "." s).

(** *** MQTT topic names

    A topic name a client may publish to is not empty, is at most 65535
    bytes long, and holds neither a wildcard character nor NUL. *)
Definition valid_publish_topic (s : string) : bool :=
  negb (String.eqb s "")
  && (Z.of_nat (String.length s) <=? 65535)
  && negb (contains "#" s)
  && negb (contains "+" s)
  && negb (contains zero s).

Definition iana_mqtt_port : Z := 1883.

(** ** The documented data model

    The documentation gives each of the ten names a semantic type: string,
    or integer between 0 and 65535.  [device_config] is that field table,
    kept apart from the header so that the two can be compared. *)

Inductive sem_type : Type :=
| SemString
| SemInteger.

Definition device_config : list (string * sem_type) :=
  [ ("hostname", SemString);
    ("mqtt_user", SemString);
    ("mqtt_pass", SemString);
    ("mqtt_server", SemString);
    ("mqtt_port", SemInteger);
    ("wifi_ssid", SemString);
    ("wifi_pass", SemString);
    ("mqtt_topic", SemString);
    ("ota_pass", SemString);
    ("mqtt_deepsleep", SemString) ].

(** The semantic type a declared type stands for. *)
Definition sem_of (t : ctype) : sem_type :=
  if is_charptr t then SemString else SemInteger.

(** A store holds a value of semantic type [t] under [x]: a readable
    NUL-terminated string, or an integer in the documented range. *)
Definition holds (st : state) (x : string) (t : sem_type) : bool :=
  match t with
  | SemString =>
      match read_cstring x st with
      | Some _ => true
      | None => false
      end
  | SemInteger =>
      match read_int x st with
      | Some z => (0 <=? z) && (z <=? 65535)
      | None => false
      end
  end.

(** The declared C++ type of a stored value is respected: an [int] is
    within the range of the build's [int], a pointer is a pointer. *)
Definition well_typed (b : build) (bd : binding) : bool :=
  match b_type bd, b_value bd with
  | Tint _, VInt z =>
      (- 2 ^ (int_bits b - 1) <=? z) && (z <? 2 ^ (int_bits b - 1))
  | Tcharptr _ _, VPtr _ => true
  | _, _ => false
  end.

(** The store every build reaches (see [static_init_eq]). *)
Definition initial_state (b : build) : state :=
  State
    [ ("hostname", Bind const_char_ptr (VPtr (Some 0%nat)));
      ("mqtt_user", Bind const_char_ptr (VPtr (Some 1%nat)));
      ("mqtt_pass", Bind const_char_ptr (VPtr (Some 2%nat)));
      ("mqtt_server", Bind const_char_ptr (VPtr (Some 3%nat)));
      ("mqtt_port", Bind const_int (VInt (wrap_signed (int_bits b) mqtt_port)));
      ("wifi_ssid", Bind const_char_ptr (VPtr (Some 4%nat)));
      ("wifi_pass", Bind const_char_ptr (VPtr (Some 5%nat)));
      ("mqtt_topic", Bind const_char_ptr (VPtr (Some 6%nat)));
      ("ota_pass", Bind const_char_ptr (VPtr (Some 7%nat)));
      ("mqtt_deepsleep", Bind const_char_ptr (VPtr (Some 8%nat))) ]
    (map literal_array
       [ hostname; mqtt_user; mqtt_pass; mqtt_server; wifi_ssid; wifi_pass;
         mqtt_topic; ota_pass; mqtt_deepsleep ]).

(** ** Properties used to state the claims *)

(** No assignment to [x] is accepted in [st]. *)
Definition binding_immutable (b : build) (st : state) (x : string) : Prop :=
  forall rhs, is_ok (exec b (Assign x rhs) st) = false.

(** The characters [x] points to cannot be stored to through [x]. *)
Definition chars_immutable (b : build) (st : state) (x : string) : Prop :=
  forall i c, exec b (StoreChar x i c) st = Err (StoreThroughConst x).

(** The declared type of [x] in [st]. *)
Definition type_of (x : string) (st : state) : option ctype :=
  option_map b_type (lookup x (env st)).

Definition pointee_const (t : ctype) : bool :=
  match t with
  | Tcharptr false _ => false
  | _ => true
  end.

(** No binding of [st] is a pointer through which characters may be
    stored. *)
Definition chars_protected (st : state) : Prop :=
  forall x bd, lookup x (env st) = Some bd -> pointee_const (b_type bd) = true.


(** A line of the header that selects nothing conditionally. *)
Definition straight_line (i : item) : bool :=
  match i with
  | Directive n _ => negb (conditional_directive n)
  | VarDef _ => true
  end.

(** The initialiser of a definition converts to its declared type. *)
Definition init_ok (d : var_def) : bool :=
  match vd_type d, vd_init d with
  | Tint _, LInt _ => true
  | Tcharptr true _, LStr _ => true
  | Tcharptr _ _, LInt Z0 => true
  | _, _ => false
  end.

Definition ten_names : list string :=
  [ "hostname"; "mqtt_user"; "mqtt_pass"; "mqtt_server"; "mqtt_port";
    "wifi_ssid"; "wifi_pass"; "mqtt_topic"; "ota_pass"; "mqtt_deepsleep" ].

(** ** The template with its literals replaced

    The header is a template: it is copied and its ten literals are edited
    by hand.  [secrets_h c] is the header with the literals of [c] in place
    of the template's; [template] gives the header back as it stands. *)

Record config : Type := Config {
  c_hostname : string;
  c_mqtt_user : string;
  c_mqtt_pass : string;
  c_mqtt_server : string;
  c_mqtt_port : Z;
  c_wifi_ssid : string;
  c_wifi_pass : string;
  c_mqtt_topic : string;
  c_ota_pass : string;
  c_mqtt_deepsleep : string
}.

Definition template : config :=
  Config hostname mqtt_user mqtt_pass mqtt_server mqtt_port wifi_ssid
         wifi_pass mqtt_topic ota_pass mqtt_deepsleep.

Definition secrets_h (c : config) : list item :=
  [ Directive "pragma" "once";
    VarDef (VarDefOf const_char_ptr "hostname" (LStr (c_hostname c)));
    VarDef (VarDefOf const_char_ptr "mqtt_user" (LStr (c_mqtt_user c)));
    VarDef (VarDefOf const_char_ptr "mqtt_pass" (LStr (c_mqtt_pass c)));
    VarDef (VarDefOf const_char_ptr "mqtt_server" (LStr (c_mqtt_server c)));
    VarDef (VarDefOf const_int "mqtt_port" (LInt (c_mqtt_port c)));
    VarDef (VarDefOf const_char_ptr "wifi_ssid" (LStr (c_wifi_ssid c)));
    VarDef (VarDefOf const_char_ptr "wifi_pass" (LStr (c_wifi_pass c)));
    VarDef (VarDefOf const_char_ptr "mqtt_topic" (LStr (c_mqtt_topic c)));
    VarDef (VarDefOf const_char_ptr "ota_pass" (LStr (c_ota_pass c)));
    VarDef (VarDefOf const_char_ptr "mqtt_deepsleep"
              (LStr (c_mqtt_deepsleep c))) ].

(** The nine string bindings with the literal each is given. *)
Definition string_fields (c : config) : list (string * string) :=
  [ ("hostname", c_hostname c);
    ("mqtt_user", c_mqtt_user c);
    ("mqtt_pass", c_mqtt_pass c);
    ("mqtt_server", c_mqtt_server c);
    ("wifi_ssid", c_wifi_ssid c);
    ("wifi_pass", c_wifi_pass c);
    ("mqtt_topic", c_mqtt_topic c);
    ("ota_pass", c_ota_pass c);
    ("mqtt_deepsleep", c_mqtt_deepsleep c) ].

Definition unit_of (b : build) (h : list item) : list item :=
  include_times (S (extra_includes b)) h.

Definition static_init_of (b : build) (h : list item) : result state :=
  define_all b (var_defs (unit_of b h)) empty_state.

(** What a C string function sees of a literal: its characters before the
    first NUL. *)
Fixpoint before_nul (s : string) : string :=
  match s with
  | EmptyString => EmptyString
  | String c s' =>
      if Ascii.eqb c zero then EmptyString else String c (before_nul s')
  end.

(** What a definition is read back as, once accepted. *)
Definition expected_read (b : build) (d : var_def) (st : state) : Prop :=
  match vd_type d, vd_init d with
  | Tint _, LInt z =>
      read_int (vd_name d) st = Some (wrap_signed (int_bits b) z)
  | Tcharptr true _, LStr s =>
      read_cstring (vd_name d) st = Some (before_nul s)
  | Tcharptr _ _, LInt Z0 => read (vd_name d) st = Some (VPtr None)
  | _, _ => True
  end.

(** [st'] keeps every binding and every literal array of [st]. *)
Definition extends (st st' : state) : Prop :=
  (forall x bd, lookup x (env st) = Some bd -> lookup x (env st') = Some bd)
  /\ exists extra, rodata st' = (rodata st ++ extra)%list.

(** ** Linkage

    A namespace-scope variable whose own type is const has internal
    linkage; any other has external linkage and is a symbol of its
    translation unit.  Linking collects the symbols of the units in order
    and stops at the first one defined twice. *)









Definition nine_names : list string :=
  [ "hostname"; "mqtt_user"; "mqtt_pass"; "mqtt_server"; "wifi_ssid";
    "wifi_pass"; "mqtt_topic"; "ota_pass"; "mqtt_deepsleep" ].

(** * Lemmas *)

(** ** Integer conversion *)

Lemma pow2_split (w : Z) : 1 <= w -> 2 ^ w = 2 * 2 ^ (w - 1).
Proof.
  intros Hw.
  replace w with (Z.succ (w - 1)) at 1 by lia.
  rewrite Z.pow_succ_r by lia.
  reflexivity.
Qed.

Lemma wrap_signed_small (w z : Z) :
  16 <= w -> - 32768 <= z < 32768 -> wrap_signed w z = z.
Proof.
  intros Hw Hz.
  unfold wrap_signed.
  assert (H15 : 2 ^ 15 <= 2 ^ (w - 1)) by (apply Z.pow_le_mono_r; lia).
  change (2 ^ 15) with 32768 in H15.
  rewrite (pow2_split w) by lia.
  rewrite Z.mod_small by lia.
  lia.
Qed.

Lemma wrap_signed_range (w z : Z) :
  1 <= w -> - 2 ^ (w - 1) <= wrap_signed w z < 2 ^ (w - 1).
Proof.
  intros Hw.
  unfold wrap_signed.
  assert (Hpos : 0 < 2 ^ w) by (apply Z.pow_pos_nonneg; lia).
  pose proof (Z.mod_pos_bound (z + 2 ^ (w - 1)) (2 ^ w) Hpos) as Hm.
  pose proof (pow2_split w Hw) as Hp.
  lia.
Qed.

(** ** The translation unit and its static initialisation *)

Lemma translation_unit_eq (b : build) :
  translation_unit b = secrets_template_h.
Proof.
  unfold translation_unit.
  cbn [include_times].
  change (has_pragma_once secrets_template_h) with true.
  cbv iota.
  apply app_nil_r.
Qed.

Lemma static_init_eq (b : build) : static_init b = Ok (initial_state b).
Proof.
  destruct b as [w k].
  reflexivity.
Qed.

Lemma read_mqtt_port (b : build) :
  read_int "mqtt_port" (initial_state b)
  = Some (wrap_signed (int_bits b) mqtt_port).
Proof.
  reflexivity.
Qed.

(** ** NUL-terminated arrays *)

Lemma until_nul_literal_array (s : string) :
  contains zero s = false -> until_nul (literal_array s) = Some s.
Proof.
  unfold literal_array.
  induction s as [| c s IH]; intros H.
  - reflexivity.
  - cbn [contains] in H.
    apply orb_false_iff in H.
    destruct H as [Hc Hs].
    rewrite Ascii.eqb_sym in Hc.
    cbn [append until_nul].
    rewrite Hc.
    rewrite (IH Hs).
    reflexivity.
Qed.

(** ** Runs of reads *)



Lemma nth_error_middle {A : Type} (pre post : list A) (a : A) :
  nth_error (pre ++ a :: post) (List.length pre) = Some a.
Proof.
  induction pre as [| p pre IH]; cbn.
  - reflexivity.
  - exact IH.
Qed.



(** ** Splitting on a separator *)

Lemma split_on_nonempty (sep : ascii) (s : string) : split_on sep s <> [].
Proof.
  destruct s as [| c s]; cbn.
  - discriminate.
  - destruct (Ascii.eqb c sep).
    + discriminate.
    + destruct (split_on sep s); discriminate.
Qed.

Lemma join_cons (sep : ascii) (x y : string) (l : list string) :
  join sep (x :: y :: l) = x ++ String sep (join sep (y :: l)).
Proof.
  reflexivity.
Qed.

Lemma join_split_on (sep : ascii) (s : string) :
  join sep (split_on sep s) = s.
Proof.
  induction s as [| c s IH].
  - reflexivity.
  - cbn [split_on].
    pose proof (split_on_nonempty sep s) as Hne.
    destruct (split_on sep s) as [| hd tl]; [congruence |].
    destruct (Ascii.eqb c sep) eqn:E.
    + apply Ascii.eqb_eq in E.
      subst c.
      rewrite join_cons, IH.
      reflexivity.
    + destruct tl as [| t tl].
      * cbn [join] in *.
        now rewrite IH.
      * rewrite join_cons in *.
        cbn [append].
        now rewrite IH.
Qed.

Lemma split_on_no_sep (sep : ascii) (s : string) :
  Forall (fun p => contains sep p = false) (split_on sep s).
Proof.
  induction s as [| c s IH].
  - repeat constructor.
  - cbn [split_on].
    destruct (Ascii.eqb c sep) eqn:E.
    + constructor; [reflexivity | exact IH].
    + destruct (split_on sep s) as [| hd tl].
      * constructor; [| constructor].
        cbn.
        rewrite Ascii.eqb_sym, E.
        reflexivity.
      * inversion IH as [| ? ? Hhd Htl]; subst.
        constructor; [| exact Htl].
        cbn [contains].
        rewrite Ascii.eqb_sym, E, Hhd.
        reflexivity.
Qed.

(** ** Static initialisation cannot fail on distinct, well-initialised
       definitions *)

Lemma lookup_app_fresh (x y : string) (bd : binding)
    (e : list (string * binding)) :
  lookup x e = None -> String.eqb x y = false ->
  lookup x (e ++ [(y, bd)]) = None.
Proof.
  intros He Hxy.
  induction e as [| [z old] e IH]; cbn in *.
  - now rewrite Hxy.
  - destruct (String.eqb x z); [discriminate | auto].
Qed.

Lemma convert_total (b : build) (d : var_def) (ro : list string) :
  init_ok d = true ->
  exists r, convert b (vd_name d) (vd_type d) (vd_init d) ro = Ok r.
Proof.
  unfold init_ok, convert.
  destruct (vd_type d) as [c | [|] pc]; destruct (vd_init d) as [s | [| p | p]];
    intros H; try discriminate; eexists; reflexivity.
Qed.

Lemma define_all_total (b : build) (ds : list var_def) :
  forall st,
    NoDup (map vd_name ds) ->
    Forall (fun d => lookup (vd_name d) (env st) = None) ds ->
    forallb init_ok ds = true ->
    is_ok (define_all b ds st) = true.
Proof.
  induction ds as [| d ds IH]; intros st Hnd Hfresh Hok.
  - reflexivity.
  - cbn [define_all].
    inversion Hnd as [| ? ? Hnotin Hnd']; subst.
    inversion Hfresh as [| ? ? Hd Hrest]; subst.
    cbn [forallb] in Hok.
    apply andb_true_iff in Hok.
    destruct Hok as [Hd_ok Hds_ok].
    unfold define_var.
    rewrite Hd.
    destruct (convert_total b d (rodata st) Hd_ok) as [r Hr].
    rewrite Hr.
    cbn [bind].
    apply IH; [exact Hnd' | | exact Hds_ok].
    cbn [env].
    rewrite Forall_forall in *.
    intros d' Hin.
    apply lookup_app_fresh; [auto |].
    apply String.eqb_neq.
    intros Heq.
    apply Hnotin.
    rewrite <- Heq.
    now apply in_map.
Qed.

(** ** The names of the header *)

Lemma declared_names_eq : declared_names secrets_template_h = ten_names.
Proof.
  reflexivity.
Qed.

Lemma string_names_eq :
  string_names secrets_template_h
  = [ "hostname"; "mqtt_user"; "mqtt_pass"; "mqtt_server"; "wifi_ssid";
      "wifi_pass"; "mqtt_topic"; "ota_pass"; "mqtt_deepsleep" ].
Proof.
  reflexivity.
Qed.

(** Goals of the form [Forall P l] over a list written out: one subgoal per
    element, each handed to [tac]. *)
Ltac for_each tac :=
  repeat first [ apply Forall_nil | apply Forall_cons; [ tac | ] ].

(** ** The dotted-decimal check states what it reads *)

Lemma is_ipv4_literal_spec (s : string) :
  is_ipv4_literal s = true <->
  List.length (split_on "." s) = 4%nat
  /\ Forall (fun o => exists n, parse_dec o = Some n /\ 0 <= n <= 255)
            (split_on "." s).
Proof.
  unfold is_ipv4_literal.
  rewrite andb_true_iff, Nat.eqb_eq, forallb_forall, Forall_forall.
  split; intros [Hlen Hall]; split; try exact Hlen; intros o Hin.
  - specialize (Hall o Hin).
    unfold octet in Hall.
    destruct (parse_dec o) as [n |]; [| discriminate].
    exists n.
    split; [reflexivity | lia].
  - destruct (Hall o Hin) as [n [Hn Hr]].
    unfold octet.
    rewrite Hn.
    apply andb_true_iff.
    split; [apply Z.leb_le | apply Z.leb_le]; lia.
Qed.

(** ** What accepted statements preserve *)

Lemma lookup_update (x y : string) (bd' : binding)
    (e : list (string * binding)) :
  lookup y (update x bd' e)
  = if String.eqb y x
    then match lookup x e with Some _ => Some bd' | None => None end
    else lookup y e.
Proof.
  induction e as [| [z old] e IH]; cbn [update lookup].
  - now destruct (String.eqb y x).
  - destruct (String.eqb x z) eqn:Exz; cbn [lookup].
    + apply String.eqb_eq in Exz.
      subst z.
      now destruct (String.eqb y x).
    + destruct (String.eqb y z) eqn:Eyz.
      * apply String.eqb_eq in Eyz.
        subst z.
        rewrite String.eqb_sym in Exz.
        now rewrite Exz.
      * exact IH.
Qed.

Lemma convert_extends (b : build) (x : string) (t : ctype) (l : literal)
    (ro : list string) (r : value * list string) :
  convert b x t l ro = Ok r -> exists extra, snd r = (ro ++ extra)%list.
Proof.
  unfold convert.
  destruct t as [c | [|] pc]; destruct l as [s | [| q | q]];
    intros H; inversion H; subst; cbn [snd];
    first [ exists []; now rewrite app_nil_r | eexists; reflexivity ].
Qed.

Lemma exec_assign_inv (b : build) (x : string) (rhs : literal)
    (st st' : state) :
  exec b (Assign x rhs) st = Ok st' ->
  exists bd v,
    lookup x (env st) = Some bd
    /\ top_const (b_type bd) = false
    /\ env st' = update x (Bind (b_type bd) v) (env st)
    /\ exists extra, rodata st' = (rodata st ++ extra)%list.
Proof.
  cbn [exec].
  destruct (lookup x (env st)) as [bd |]; [| discriminate].
  destruct (top_const (b_type bd)) eqn:Hc; [discriminate |].
  destruct (convert b x (b_type bd) rhs (rodata st)) as [r | e] eqn:Hcv;
    [| discriminate].
  cbn [bind].
  intros H.
  inversion H; subst; clear H.
  exists bd, (fst r).
  cbn [env rodata].
  split; [reflexivity |].
  split; [exact Hc |].
  split; [reflexivity |].
  exact (convert_extends _ _ _ _ _ _ Hcv).
Qed.

Lemma exec_store_rejected (b : build) (x : string) (i : nat) (c : ascii)
    (st : state) :
  chars_protected st -> is_ok (exec b (StoreChar x i c) st) = false.
Proof.
  intros Hp.
  cbn [exec].
  destruct (lookup x (env st)) as [bd |] eqn:Hl; [| reflexivity].
  specialize (Hp x bd Hl).
  destruct (b_type bd) as [k | [|] pc]; cbn in Hp; try discriminate.
  - now destruct (b_value bd).
  - reflexivity.
Qed.

Lemma exec_preserves (b : build) (s : stmt) (st st' : state) :
  chars_protected st ->
  exec b s st = Ok st' ->
  (forall y, type_of y st' = type_of y st)
  /\ (forall y bd, lookup y (env st) = Some bd ->
                   top_const (b_type bd) = true ->
                   lookup y (env st') = Some bd)
  /\ exists extra, rodata st' = (rodata st ++ extra)%list.
Proof.
  intros Hp He.
  destruct s as [x rhs | x i c].
  - destruct (exec_assign_inv b x rhs st st' He)
      as [bd [v [Hl [Hc [Henv Hro]]]]].
    split; [| split; [| exact Hro]].
    + intros y.
      unfold type_of.
      rewrite Henv, lookup_update, Hl.
      destruct (String.eqb y x) eqn:E; [| reflexivity].
      apply String.eqb_eq in E.
      subst y.
      now rewrite Hl.
    + intros y bd0 Hy Hconst.
      rewrite Henv, lookup_update.
      destruct (String.eqb y x) eqn:E; [| exact Hy].
      apply String.eqb_eq in E.
      subst y.
      congruence.
  - pose proof (exec_store_rejected b x i c st Hp) as Hr.
    rewrite He in Hr.
    discriminate.
Qed.

Lemma protected_by_types (st st' : state) :
  chars_protected st ->
  (forall y, type_of y st' = type_of y st) ->
  chars_protected st'.
Proof.
  intros Hp Ht x bd' Hl.
  specialize (Ht x).
  unfold type_of in Ht.
  rewrite Hl in Ht.
  destruct (lookup x (env st)) as [bd |] eqn:Hl0; [| discriminate].
  cbn in Ht.
  inversion Ht as [Heq].
  rewrite Heq.
  exact (Hp x bd Hl0).
Qed.

Lemma exec_all_preserves (b : build) (p : list stmt) :
  forall st st',
    chars_protected st ->
    exec_all b p st = Ok st' ->
    chars_protected st'
    /\ (forall y, type_of y st' = type_of y st)
    /\ (forall y bd, lookup y (env st) = Some bd ->
                     top_const (b_type bd) = true ->
                     lookup y (env st') = Some bd)
    /\ exists extra, rodata st' = (rodata st ++ extra)%list.
Proof.
  induction p as [| s p IH]; intros st st' Hp He.
  - cbn in He.
    inversion He; subst.
    repeat split; auto.
    exists [].
    now rewrite app_nil_r.
  - cbn [exec_all] in He.
    destruct (exec b s st) as [st1 | e] eqn:H1; [| discriminate].
    cbn [bind] in He.
    destruct (exec_preserves b s st st1 Hp H1) as [Ht1 [Hf1 [x1 Hr1]]].
    pose proof (protected_by_types st st1 Hp Ht1) as Hp1.
    destruct (IH st1 st' Hp1 He) as [Hp' [Ht' [Hf' [x' Hr']]]].
    split; [exact Hp' |].
    split; [intros y; now rewrite Ht', Ht1 |].
    split; [intros y bd Hy Hc; apply Hf'; auto |].
    exists (x1 ++ x')%list.
    now rewrite Hr', Hr1, app_assoc.
Qed.

Lemma lookup_in (x : string) (bd : binding) (e : list (string * binding)) :
  lookup x e = Some bd -> In bd (map snd e).
Proof.
  induction e as [| [z old] e IH]; cbn.
  - discriminate.
  - destruct (String.eqb x z).
    + intros H.
      inversion H.
      now left.
    + intros H.
      right.
      exact (IH H).
Qed.

Lemma initial_protected (b : build) : chars_protected (initial_state b).
Proof.
  intros x bd Hl.
  apply lookup_in in Hl.
  cbn in Hl.
  repeat (destruct Hl as [Hl | Hl]; [subst bd; reflexivity |]).
  contradiction.
Qed.

(** After any accepted sequence of statements the const objects of the
    header are as static initialisation left them: mqtt_port still rejects
    assignment and holds its value, every string binding still rejects a
    store through it, and the literal arrays are an unchanged prefix of the
    literal storage. *)
Lemma constants_survive (b : build) (p : list stmt) (st' : state) :
  exec_all b p (initial_state b) = Ok st' ->
  binding_immutable b st' "mqtt_port"
  /\ read_int "mqtt_port" st' = read_int "mqtt_port" (initial_state b)
  /\ Forall (fun x => chars_immutable b st' x)
            (string_names secrets_template_h)
  /\ firstn (List.length (rodata (initial_state b))) (rodata st')
     = rodata (initial_state b).
Proof.
  intros He.
  destruct (exec_all_preserves b p _ _ (initial_protected b) He)
    as [Hp [Ht [Hf [extra Hr]]]].
  assert (Hport : lookup "mqtt_port" (env st')
                  = Some (Bind const_int
                            (VInt (wrap_signed (int_bits b) mqtt_port))))
    by (apply Hf; reflexivity).
  split; [| split; [| split]].
  - intros rhs.
    cbn [exec].
    now rewrite Hport.
  - unfold read_int, read.
    now rewrite Hport.
  - rewrite string_names_eq.
    for_each ltac:(
      intros i c;
      match goal with
      | |- exec _ (StoreChar ?x _ _) _ = _ =>
          pose proof (Ht x) as Hx; unfold type_of in Hx; cbn in Hx;
          cbn [exec];
          destruct (lookup x (env st')) as [bd |]; [| discriminate];
          cbn in Hx; inversion Hx as [Hty]; rewrite Hty; reflexivity
      end).
  - rewrite Hr.
    rewrite firstn_app, Nat.sub_diag, firstn_all.
    cbn [firstn].
    apply app_nil_r.
Qed.

(** ** The error paths are live

    Each error static initialisation can raise is raised by some header,
    and the hypotheses used below are needed. *)

Example twice_without_pragma_once :
  define_all esp_build
    (var_defs (include_times 2 (tl secrets_template_h))) empty_state
  = Err (Redefinition "hostname").
Proof.
  reflexivity.
Qed.

Example string_for_int :
  define_var esp_build (VarDefOf const_int "mqtt_port" (LStr "1883"))
             empty_state
  = Err (BadInitializer "mqtt_port").
Proof.
  reflexivity.
Qed.

Example null_pointer_is_null :
  exists st,
    define_var esp_build (VarDefOf const_char_ptr "hostname" (LInt 0))
               empty_state = Ok st
    /\ non_null "hostname" st = false
    /\ read_cstring "hostname" st = None.
Proof.
  eexists.
  repeat split.
Qed.

Example eight_bit_int_truncates : wrap_signed 8 mqtt_port = 91.
Proof.
  reflexivity.
Qed.

Example not_ipv4 :
  is_ipv4_literal "192.168.1" = false
  /\ is_ipv4_literal "192.168.1.256" = false
  /\ is_ipv4_literal "192.168..15" = false
  /\ is_ipv4_literal "192.168.1.x5" = false.
Proof.
  repeat split.
Qed.

Example wildcard_topic_rejected :
  valid_publish_topic "epever/#" = false
  /\ valid_publish_topic "epever/+/state" = false
  /\ valid_publish_topic "" = false.
Proof.
  repeat split.
Qed.

(** * The claims *)

(** C1. With the template unmodified, every string constant reads back as
    exactly the literal of the template: hostname is "espSolarChargerOTA",
    mqtt_user is "mqtt_user", mqtt_pass is "mqtt_password", mqtt_server is
    "192.168.1.15", wifi_ssid is "wifi_network", wifi_pass is
    "wifi_passsword", mqtt_topic is "epever/state", ota_pass is "guessme"
    and mqtt_deepsleep is "epever/deepsleep". *)
Theorem template_literals_exact (b : build) :
  exists st,
    static_init b = Ok st
    /\ read_cstring "hostname" st = Some "espSolarChargerOTA"
    /\ read_cstring "mqtt_user" st = Some "mqtt_user"
    /\ read_cstring "mqtt_pass" st = Some "mqtt_password"
    /\ read_cstring "mqtt_server" st = Some "192.168.1.15"
    /\ read_cstring "wifi_ssid" st = Some "wifi_network"
    /\ read_cstring "wifi_pass" st = Some "wifi_passsword"
    /\ read_cstring "mqtt_topic" st = Some "epever/state"
    /\ read_cstring "ota_pass" st = Some "guessme"
    /\ read_cstring "mqtt_deepsleep" st = Some "epever/deepsleep".
Proof.
  exists (initial_state b).
  split; [apply static_init_eq |].
  repeat split.
Qed.

(** C4. mqtt_port is an integer in the inclusive range 0 to 65535, a valid
    TCP port number: so is the literal, and so is the value the [int]
    object holds after static initialisation in every build whose [int]
    has the 16 bits C++ requires. *)
Theorem mqtt_port_is_tcp_port (b : build) :
  16 <= int_bits b ->
  exists st z,
    static_init b = Ok st
    /\ read_int "mqtt_port" st = Some z
    /\ 0 <= z <= 65535
    /\ z = mqtt_port.
Proof.
  intros Hw.
  exists (initial_state b), mqtt_port.
  split; [apply static_init_eq |].
  rewrite read_mqtt_port.
  rewrite wrap_signed_small by (unfold mqtt_port; lia).
  unfold mqtt_port.
  repeat split; lia.
Qed.

Lemma mqtt_port_is_tcp_port_witness :
  16 <= int_bits esp_build
  /\ exists st z,
       static_init esp_build = Ok st
       /\ read_int "mqtt_port" st = Some z
       /\ 0 <= z <= 65535
       /\ z = mqtt_port.
Proof.
  split; [cbn; lia | apply (mqtt_port_is_tcp_port esp_build); cbn; lia].
Defined.

(** C8. mqtt_port equals exactly 1883, the port IANA registers for MQTT
    without TLS. *)
Theorem mqtt_port_is_1883 (b : build) :
  16 <= int_bits b ->
  exists st,
    static_init b = Ok st
    /\ read_int "mqtt_port" st = Some 1883
    /\ mqtt_port = 1883
    /\ mqtt_port = iana_mqtt_port.
Proof.
  intros Hw.
  exists (initial_state b).
  split; [apply static_init_eq |].
  rewrite read_mqtt_port.
  rewrite wrap_signed_small by (unfold mqtt_port; lia).
  repeat split.
Qed.

Lemma mqtt_port_is_1883_witness :
  16 <= int_bits esp_build
  /\ exists st,
       static_init esp_build = Ok st
       /\ read_int "mqtt_port" st = Some 1883
       /\ mqtt_port = 1883
       /\ mqtt_port = iana_mqtt_port.
Proof.
  split; [cbn; lia | apply (mqtt_port_is_1883 esp_build); cbn; lia].
Defined.

(** C2, as amended. The header exposes exactly the ten named values, no
    more and no fewer.  mqtt_port is an immutable integer binding: every
    assignment to it is rejected.  Each of the nine string bindings is a
    pointer to immutable characters (no store through it is accepted), but
    the pointer itself is not const: an assignment of another string
    literal is accepted and the binding then reads as that literal.  What
    is const stays so through every accepted sequence of statements:
    mqtt_port keeps its value and still rejects assignment, the string
    bindings still reject stores, and the nine literal arrays are never
    changed. *)
Theorem bindings_as_declared (b : build) :
  exists st,
    static_init b = Ok st
    /\ declared_names (translation_unit b) = ten_names
    /\ map fst (env st) = ten_names
    /\ int_names (translation_unit b) = ["mqtt_port"]
    /\ binding_immutable b st "mqtt_port"
    /\ List.length (string_names (translation_unit b)) = 9%nat
    /\ Forall (fun x => type_of x st = Some (Tcharptr true false))
              (string_names (translation_unit b))
    /\ Forall (fun x => chars_immutable b st x)
              (string_names (translation_unit b))
    /\ Forall (fun x => forall s, exists st',
                 exec b (Assign x (LStr s)) st = Ok st'
                 /\ read_cstring x st' = until_nul (literal_array s))
              (string_names (translation_unit b))
    /\ (forall p,
          match exec_all b p st with
          | Ok st' =>
              binding_immutable b st' "mqtt_port"
              /\ read_int "mqtt_port" st' = read_int "mqtt_port" st
              /\ Forall (fun x => chars_immutable b st' x)
                        (string_names (translation_unit b))
              /\ firstn (List.length (rodata st)) (rodata st') = rodata st
          | Err _ => True
          end).
Proof.
  exists (initial_state b).
  rewrite translation_unit_eq, string_names_eq.
  split; [apply static_init_eq |].
  repeat (split; [reflexivity |]).
  split; [intros rhs; reflexivity |].
  split; [reflexivity |].
  split; [for_each ltac:(reflexivity) |].
  split; [for_each ltac:(intros i c; reflexivity) |].
  split; [for_each ltac:(intros s; eexists; split; reflexivity) |].
  intros p.
  destruct (exec_all b p (initial_state b)) as [st' | e] eqn:E; [| exact I].
  rewrite <- string_names_eq.
  exact (constants_survive b p st' E).
Qed.

(** C2, as stated, fails: after static initialisation of the ESP build the
    assignment [hostname = "other";] is accepted, and hostname then reads
    "other" instead of "espSolarChargerOTA". *)
Lemma hostname_reassigned :
  static_init esp_build = Ok (initial_state esp_build)
  /\ In "hostname" (declared_names (translation_unit esp_build))
  /\ read_cstring "hostname" (initial_state esp_build)
     = Some "espSolarChargerOTA"
  /\ (exists st',
        exec esp_build (Assign "hostname" (LStr "other"))
             (initial_state esp_build) = Ok st'
        /\ read_cstring "hostname" st' = Some "other")
  /\ ~ binding_immutable esp_build (initial_state esp_build) "hostname".
Proof.
  split; [reflexivity |].
  split; [cbn; auto |].
  split; [reflexivity |].
  split.
  - eexists.
    split; reflexivity.
  - intros H.
    specialize (H (LStr "other")).
    discriminate H.
Qed.

(** C3. For all ten declared names a value of the documented type is
    present and non-null, and every one of the nine string fields is a
    non-empty string. *)
Theorem all_values_present (b : build) :
  16 <= int_bits b ->
  exists st,
    static_init b = Ok st
    /\ map fst device_config = declared_names (translation_unit b)
    /\ map snd device_config
       = map (fun d => sem_of (vd_type d)) (var_defs (translation_unit b))
    /\ Forall (fun p => holds st (fst p) (snd p) = true
                        /\ non_null (fst p) st = true)
              device_config
    /\ Forall (fun e => well_typed b (snd e) = true) (env st)
    /\ List.length (string_names (translation_unit b)) = 9%nat
    /\ Forall (fun x => exists s,
                 read_cstring x st = Some s
                 /\ (1 <= String.length s)%nat)
              (string_names (translation_unit b)).
Proof.
  intros Hw.
  assert (Hport : wrap_signed (int_bits b) mqtt_port = 1883)
    by (apply wrap_signed_small; unfold mqtt_port; lia).
  exists (initial_state b).
  rewrite translation_unit_eq, string_names_eq.
  split; [apply static_init_eq |].
  split; [reflexivity |].
  split; [reflexivity |].
  split; [| split; [| split; [reflexivity |]]].
  - unfold device_config.
    for_each ltac:(first
      [ split; reflexivity
      | split; [| reflexivity];
        unfold holds; rewrite read_mqtt_port, Hport; reflexivity ]).
  - unfold initial_state.
    cbn [env].
    for_each ltac:(first
      [ reflexivity
      | unfold well_typed; cbn [snd b_type b_value const_int];
        pose proof (wrap_signed_range (int_bits b) mqtt_port) as Hr;
        apply andb_true_iff; split;
        [ apply Z.leb_le | apply Z.ltb_lt ]; lia ]).
  - for_each ltac:(eexists; split; [reflexivity | cbn; lia]).
Qed.

Lemma all_values_present_witness :
  16 <= int_bits esp_build
  /\ exists st,
       static_init esp_build = Ok st
       /\ map fst device_config = declared_names (translation_unit esp_build)
       /\ map snd device_config
          = map (fun d => sem_of (vd_type d))
                (var_defs (translation_unit esp_build))
       /\ Forall (fun p => holds st (fst p) (snd p) = true
                           /\ non_null (fst p) st = true)
                 device_config
       /\ Forall (fun e => well_typed esp_build (snd e) = true) (env st)
       /\ List.length (string_names (translation_unit esp_build)) = 9%nat
       /\ Forall (fun x => exists s,
                    read_cstring x st = Some s
                    /\ (1 <= String.length s)%nat)
                 (string_names (translation_unit esp_build)).
Proof.
  split; [cbn; lia | apply (all_values_present esp_build); cbn; lia].
Defined.

(** C6. mqtt_server is an IPv4 literal: exactly four components separated
    by dots, each a decimal numeral that parses to an integer between 0 and
    255. *)
Theorem mqtt_server_is_ipv4 (b : build) :
  exists st s,
    static_init b = Ok st
    /\ read_cstring "mqtt_server" st = Some s
    /\ split_on "." s = ["192"; "168"; "1"; "15"]
    /\ join "." (split_on "." s) = s
    /\ List.length (split_on "." s) = 4%nat
    /\ Forall (fun o => contains "." o = false) (split_on "." s)
    /\ Forall (fun o => exists n, parse_dec o = Some n /\ 0 <= n <= 255)
              (split_on "." s)
    /\ map parse_dec (split_on "." s)
       = [Some 192; Some 168; Some 1; Some 15]
    /\ is_ipv4_literal s = true.
Proof.
  exists (initial_state b), mqtt_server.
  split; [apply static_init_eq |].
  split; [reflexivity |].
  split; [reflexivity |].
  split; [apply join_split_on |].
  assert (H : is_ipv4_literal mqtt_server = true) by reflexivity.
  pose proof (proj1 (is_ipv4_literal_spec mqtt_server) H) as [Hlen Hall].
  pose proof (split_on_no_sep "." mqtt_server) as Hdots.
  repeat split; assumption || reflexivity.
Qed.

(** C7. Static initialisation of the ten constants is the only operation
    of the header and it is total: in every build it returns a store and
    never an error, the header's lines are ten variable definitions and one
    directive that is not a conditional, no name is defined twice and every
    initialiser is a literal of the declared type. *)
Theorem static_init_total (b : build) :
  exists st,
    static_init b = Ok st
    /\ map fst (env st) = ten_names
    /\ List.length (var_defs (translation_unit b)) = 10%nat
    /\ directives (translation_unit b) = [("pragma", "once")]
    /\ forallb straight_line (translation_unit b) = true
    /\ NoDup (declared_names (translation_unit b))
    /\ forallb init_ok (var_defs (translation_unit b)) = true.
Proof.
  exists (initial_state b).
  rewrite translation_unit_eq.
  split; [apply static_init_eq |].
  repeat (split; [reflexivity |]).
  split; [| reflexivity].
  rewrite declared_names_eq.
  unfold ten_names.
  repeat (apply NoDup_cons; [cbn; intuition discriminate |]).
  apply NoDup_nil.
Qed.

(** C9. The two MQTT topics mqtt_topic and mqtt_deepsleep are distinct,
    both begin with "epever/", and neither holds a wildcard character
    ('#' or '+'): both are valid topics to publish to. *)
Theorem mqtt_topics_valid (b : build) :
  exists st t1 t2,
    static_init b = Ok st
    /\ read_cstring "mqtt_topic" st = Some t1
    /\ read_cstring "mqtt_deepsleep" st = Some t2
    /\ t1 <> t2
    /\ String.prefix "epever/" t1 = true
    /\ String.prefix "epever/" t2 = true
    /\ contains "#" t1 = false /\ contains "+" t1 = false
    /\ contains "#" t2 = false /\ contains "+" t2 = false
    /\ valid_publish_topic t1 = true
    /\ valid_publish_topic t2 = true.
Proof.
  exists (initial_state b), mqtt_topic, mqtt_deepsleep.
  split; [apply static_init_eq |].
  repeat (split; [reflexivity |]).
  split; [discriminate |].
  repeat split.
Qed.

(** C10. Every one of the nine string constants consists solely of
    printable ASCII characters and holds no whitespace and no control
    character. *)
Theorem strings_plain_ascii (b : build) :
  exists st,
    static_init b = Ok st
    /\ List.length (string_names (translation_unit b)) = 9%nat
    /\ Forall (fun x => exists s,
                 read_cstring x st = Some s
                 /\ string_forall printable s = true
                 /\ string_forall (fun c => negb (whitespace c)) s = true
                 /\ string_forall (fun c => negb (control c)) s = true
                 /\ string_forall plain_char s = true)
              (string_names (translation_unit b)).
Proof.
  exists (initial_state b).
  rewrite translation_unit_eq, string_names_eq.
  split; [apply static_init_eq |].
  split; [reflexivity |].
  for_each ltac:(eexists; repeat split; reflexivity).
Qed.

(** * Beyond the claims: the template edited, reordered, re-included and
      linked *)

(** ** Helper lemmas *)

Lemma include_once (h : list item) (n : nat) :
  has_pragma_once h = true -> include_times (S n) h = h.
Proof.
  intros Hp.
  cbn [include_times].
  rewrite Hp.
  apply app_nil_r.
Qed.

Lemma unit_of_secrets_h (b : build) (c : config) :
  unit_of b (secrets_h c) = secrets_h c.
Proof.
  apply include_once.
  reflexivity.
Qed.

Lemma wrap_signed_in_range (w z : Z) :
  1 <= w -> - 2 ^ (w - 1) <= z < 2 ^ (w - 1) -> wrap_signed w z = z.
Proof.
  intros Hw Hz.
  unfold wrap_signed.
  rewrite (pow2_split w Hw).
  rewrite Z.mod_small by lia.
  lia.
Qed.

Lemma until_nul_before (s : string) :
  until_nul (literal_array s) = Some (before_nul s).
Proof.
  unfold literal_array.
  induction s as [| c s IH]; cbn [append until_nul before_nul].
  - reflexivity.
  - destruct (Ascii.eqb c zero); [reflexivity |].
    now rewrite IH.
Qed.

Lemma before_nul_no_nul (s : string) : contains zero (before_nul s) = false.
Proof.
  induction s as [| c s IH]; cbn [before_nul].
  - reflexivity.
  - destruct (Ascii.eqb c zero) eqn:E; [reflexivity |].
    cbn [contains].
    rewrite Ascii.eqb_sym, E.
    exact IH.
Qed.

Lemma before_nul_prefix (s : string) :
  String.prefix (before_nul s) s = true.
Proof.
  induction s as [| c s IH]; cbn [before_nul].
  - reflexivity.
  - destruct (Ascii.eqb c zero); [reflexivity |].
    cbn [String.prefix].
    destruct (ascii_dec c c) as [_ | Hne]; [exact IH | congruence].
Qed.

Lemma before_nul_id (s : string) :
  contains zero s = false -> before_nul s = s.
Proof.
  induction s as [| c s IH]; intros H.
  - reflexivity.
  - cbn [contains] in H.
    apply orb_false_iff in H.
    destruct H as [Hc Hs].
    rewrite Ascii.eqb_sym in Hc.
    cbn [before_nul].
    rewrite Hc, (IH Hs).
    reflexivity.
Qed.

(** ** Static initialisation only ever adds *)

Lemma lookup_app_found (x : string) (bd : binding)
    (e e' : list (string * binding)) :
  lookup x e = Some bd -> lookup x (e ++ e') = Some bd.
Proof.
  induction e as [| [z old] e IH]; cbn.
  - discriminate.
  - destruct (String.eqb x z); auto.
Qed.

Lemma lookup_app_new (x : string) (bd : binding)
    (e : list (string * binding)) :
  lookup x e = None -> lookup x (e ++ [(x, bd)]) = Some bd.
Proof.
  induction e as [| [z old] e IH]; cbn.
  - now rewrite String.eqb_refl.
  - destruct (String.eqb x z); [discriminate | auto].
Qed.

Lemma define_var_inv (b : build) (d : var_def) (st st' : state) :
  define_var b d st = Ok st' ->
  lookup (vd_name d) (env st) = None
  /\ exists r,
       convert b (vd_name d) (vd_type d) (vd_init d) (rodata st) = Ok r
       /\ st' = State (env st ++ [(vd_name d, Bind (vd_type d) (fst r))])
                      (snd r).
Proof.
  unfold define_var.
  destruct (lookup (vd_name d) (env st)); [discriminate |].
  destruct (convert b (vd_name d) (vd_type d) (vd_init d) (rodata st))
    as [r | e]; [| discriminate].
  cbn [bind].
  intros H.
  inversion H.
  split; [reflexivity |].
  exists r.
  split; reflexivity.
Qed.

Lemma extends_refl (st : state) : extends st st.
Proof.
  split; [auto |].
  exists [].
  now rewrite app_nil_r.
Qed.

Lemma extends_trans (st1 st2 st3 : state) :
  extends st1 st2 -> extends st2 st3 -> extends st1 st3.
Proof.
  intros [H12 [x12 R12]] [H23 [x23 R23]].
  split; [auto |].
  exists (x12 ++ x23)%list.
  now rewrite R23, R12, app_assoc.
Qed.

Lemma define_var_extends (b : build) (d : var_def) (st st' : state) :
  define_var b d st = Ok st' -> extends st st'.
Proof.
  intros H.
  destruct (define_var_inv b d st st' H) as [_ [r [Hc Hst]]].
  subst st'.
  split; cbn [env rodata].
  - intros x bd Hl.
    now apply lookup_app_found.
  - exact (convert_extends _ _ _ _ _ _ Hc).
Qed.

Lemma define_all_extends (b : build) (ds : list var_def) :
  forall st st', define_all b ds st = Ok st' -> extends st st'.
Proof.
  induction ds as [| d ds IH]; intros st st' H; cbn [define_all] in H.
  - inversion H.
    apply extends_refl.
  - destruct (define_var b d st) as [st1 | e] eqn:H1; [| discriminate].
    cbn [bind] in H.
    apply (extends_trans st st1 st').
    + exact (define_var_extends b d st st1 H1).
    + exact (IH st1 st' H).
Qed.

Lemma read_extends (st st' : state) (x : string) (v : value) :
  extends st st' -> read x st = Some v -> read x st' = Some v.
Proof.
  intros [He _].
  unfold read.
  destruct (lookup x (env st)) as [bd |] eqn:Hl; [| discriminate].
  now rewrite (He x bd Hl).
Qed.

Lemma read_int_extends (st st' : state) (x : string) (z : Z) :
  extends st st' -> read_int x st = Some z -> read_int x st' = Some z.
Proof.
  intros He.
  unfold read_int.
  destruct (read x st) as [v |] eqn:Hr; [| discriminate].
  now rewrite (read_extends st st' x v He Hr).
Qed.

Lemma read_cstring_extends (st st' : state) (x s : string) :
  extends st st' ->
  read_cstring x st = Some s -> read_cstring x st' = Some s.
Proof.
  intros He.
  unfold read_cstring.
  destruct (read x st) as [v |] eqn:Hr; [| discriminate].
  rewrite (read_extends st st' x v He Hr).
  destruct v as [z | [i |]]; try discriminate.
  destruct He as [_ [extra Hro]].
  destruct (nth_error (rodata st) i) as [a |] eqn:Hn; [| discriminate].
  rewrite Hro.
  rewrite nth_error_app1 by (apply nth_error_Some; congruence).
  now rewrite Hn.
Qed.

Lemma expected_read_extends (b : build) (d : var_def) (st st' : state) :
  extends st st' -> expected_read b d st -> expected_read b d st'.
Proof.
  intros He.
  unfold expected_read.
  destruct (vd_type d) as [c | [|] pc]; destruct (vd_init d) as [s | [| q | q]];
    eauto using read_extends, read_int_extends, read_cstring_extends.
Qed.

Lemma define_var_reads (b : build) (d : var_def) (st st' : state) :
  define_var b d st = Ok st' -> expected_read b d st'.
Proof.
  intros H.
  destruct (define_var_inv b d st st' H) as [Hfresh [r [Hc Hst]]].
  subst st'.
  unfold expected_read, convert in *.
  destruct (vd_type d) as [c | [|] pc]; destruct (vd_init d) as [s | [| q | q]];
    try exact I; try discriminate;
    inversion Hc; subst r; clear Hc;
    unfold read_int, read_cstring, read; cbn [env rodata fst snd];
    rewrite (lookup_app_new _ _ _ Hfresh); cbn [option_map b_value];
    try reflexivity.
  all: rewrite (nth_error_middle (rodata st) [] (literal_array s));
    apply until_nul_before.
Qed.

(** Every definition static initialisation accepts reads back as its
    initialiser. *)
Lemma define_all_reads (b : build) (ds : list var_def) :
  forall st st',
    define_all b ds st = Ok st' ->
    Forall (fun d => expected_read b d st') ds.
Proof.
  induction ds as [| d ds IH]; intros st st' H; cbn [define_all] in H.
  - constructor.
  - destruct (define_var b d st) as [st1 | e] eqn:H1; [| discriminate].
    cbn [bind] in H.
    constructor.
    + apply (expected_read_extends b d st1 st').
      * exact (define_all_extends b ds st1 st' H).
      * exact (define_var_reads b d st st1 H1).
    + exact (IH st1 st' H).
Qed.

Lemma define_all_names (b : build) (ds : list var_def) :
  forall st st',
    define_all b ds st = Ok st' ->
    map fst (env st') = (map fst (env st) ++ map vd_name ds)%list.
Proof.
  induction ds as [| d ds IH]; intros st st' H; cbn [define_all] in H.
  - inversion H.
    cbn.
    now rewrite app_nil_r.
  - destruct (define_var b d st) as [st1 | e] eqn:H1; [| discriminate].
    cbn [bind] in H.
    rewrite (IH st1 st' H).
    destruct (define_var_inv b d st st1 H1) as [_ [r [_ Hst]]].
    subst st1.
    cbn [env map].
    rewrite map_app, <- app_assoc.
    reflexivity.
Qed.

Lemma read_cstring_non_null (st : state) (x s : string) :
  read_cstring x st = Some s -> non_null x st = true.
Proof.
  unfold read_cstring, non_null.
  destruct (read x st) as [[z | [i |]] |]; intros H;
    reflexivity || discriminate.
Qed.

Lemma secrets_h_names (c : config) :
  map vd_name (var_defs (secrets_h c)) = ten_names.
Proof.
  reflexivity.
Qed.

Lemma ten_names_distinct : NoDup ten_names.
Proof.
  unfold ten_names.
  repeat (apply NoDup_cons; [cbn; intuition discriminate |]).
  apply NoDup_nil.
Qed.

Ltac pick_member :=
  cbn; repeat first [ left; reflexivity | right ].

(** The ten definitions of the header, taken in any order, are accepted
    and read back as their initialisers. *)
Lemma permuted_reads (b : build) (c : config) (ds : list var_def) :
  Permutation ds (var_defs (secrets_h c)) ->
  exists st,
    define_all b ds empty_state = Ok st
    /\ map fst (env st) = map vd_name ds
    /\ Forall (fun f => read_cstring (fst f) st = Some (before_nul (snd f)))
              (string_fields c)
    /\ read_int "mqtt_port" st
       = Some (wrap_signed (int_bits b) (c_mqtt_port c)).
Proof.
  intros Hperm.
  assert (Hok : is_ok (define_all b ds empty_state) = true).
  { apply define_all_total.
    - apply (Permutation_NoDup
               (l := map vd_name (var_defs (secrets_h c)))).
      + apply Permutation_map.
        now apply Permutation_sym.
      + rewrite secrets_h_names.
        exact ten_names_distinct.
    - apply Forall_forall.
      reflexivity.
    - apply forallb_forall.
      intros d Hin.
      apply (Permutation_in _ Hperm) in Hin.
      cbn in Hin.
      repeat (destruct Hin as [Hin | Hin]; [subst d; reflexivity |]).
      contradiction. }
  destruct (define_all b ds empty_state) as [st | e] eqn:Hd; [| discriminate].
  exists st.
  split; [reflexivity |].
  split; [exact (define_all_names b ds empty_state st Hd) |].
  pose proof (define_all_reads b ds empty_state st Hd) as Hreads.
  rewrite Forall_forall in Hreads.
  assert (H : forall d, In d (var_defs (secrets_h c)) ->
                        expected_read b d st).
  { intros d Hin.
    apply Hreads.
    exact (Permutation_in _ (Permutation_sym Hperm) Hin). }
  split.
  - unfold string_fields.
    for_each ltac:(
      cbn [fst snd];
      match goal with
      | |- read_cstring ?x _ = Some (before_nul ?s) =>
          exact (H (VarDefOf const_char_ptr x (LStr s)) ltac:(pick_member))
      end).
  - exact (H (VarDefOf const_int "mqtt_port" (LInt (c_mqtt_port c)))
             ltac:(pick_member)).
Qed.

Lemma wrap_signed_16_high (z : Z) :
  32768 <= z <= 65535 -> wrap_signed 16 z = z - 65536.
Proof.
  intros Hz.
  unfold wrap_signed.
  change (2 ^ (16 - 1)) with 32768.
  change (2 ^ 16) with 65536.
  replace (z + 32768) with (z - 32768 + 1 * 65536) by lia.
  rewrite Z_mod_plus_full.
  rewrite Z.mod_small by lia.
  lia.
Qed.

Lemma static_init_of_secrets_h (b : build) (c : config) :
  static_init_of b (secrets_h c)
  = define_all b (var_defs (secrets_h c)) empty_state.
Proof.
  unfold static_init_of.
  now rewrite unit_of_secrets_h.
Qed.

(** ** Properties *)

(** X1. The edited template round-trips: whatever NUL-free strings and
    whatever port within the range of [int] are written in place of the
    template's literals, static initialisation succeeds and every one of
    the ten names reads back exactly what was written. *)
Theorem edited_template_round_trip (b : build) (c : config) :
  Forall (fun f => contains zero (snd f) = false) (string_fields c) ->
  1 <= int_bits b ->
  - 2 ^ (int_bits b - 1) <= c_mqtt_port c < 2 ^ (int_bits b - 1) ->
  exists st,
    static_init_of b (secrets_h c) = Ok st
    /\ Forall (fun f => read_cstring (fst f) st = Some (snd f))
              (string_fields c)
    /\ read_int "mqtt_port" st = Some (c_mqtt_port c).
Proof.
  intros Hnul Hw Hport.
  destruct (permuted_reads b c _ (Permutation_refl _))
    as [st [Hinit [_ [Hstr Hint]]]].
  exists st.
  rewrite static_init_of_secrets_h.
  split; [exact Hinit |].
  split.
  - rewrite Forall_forall in *.
    intros f Hf.
    rewrite (Hstr f Hf), (before_nul_id _ (Hnul f Hf)).
    reflexivity.
  - rewrite Hint, (wrap_signed_in_range _ _ Hw Hport).
    reflexivity.
Qed.

Lemma edited_template_round_trip_witness :
  Forall (fun f => contains zero (snd f) = false) (string_fields template)
  /\ 1 <= int_bits esp_build
  /\ - 2 ^ (int_bits esp_build - 1) <= c_mqtt_port template
     < 2 ^ (int_bits esp_build - 1)
  /\ exists st,
       static_init_of esp_build (secrets_h template) = Ok st
       /\ Forall (fun f => read_cstring (fst f) st = Some (snd f))
                 (string_fields template)
       /\ read_int "mqtt_port" st = Some (c_mqtt_port template).
Proof.
  assert (H1 : Forall (fun f => contains zero (snd f) = false)
                      (string_fields template))
    by (unfold string_fields; repeat constructor).
  assert (H2 : 1 <= int_bits esp_build) by (cbn; lia).
  assert (H3 : - 2 ^ (int_bits esp_build - 1) <= c_mqtt_port template
               < 2 ^ (int_bits esp_build - 1))
    by (vm_compute; split; [discriminate | reflexivity]).
  exact (conj H1 (conj H2 (conj H3
           (edited_template_round_trip esp_build template H1 H2 H3)))).
Defined.

(** X2. Static initialisation of the edited template cannot fail and
    reads strings the C way: whatever the ten literals, it defines exactly
    the ten names, no string pointer is null (even for an empty literal),
    and each string reads back as the characters of its literal before the
    first NUL, a NUL-free prefix of the literal; the port reads back as the
    literal converted to [int]. *)
Theorem edited_template_initialises (b : build) (c : config) :
  exists st,
    static_init_of b (secrets_h c) = Ok st
    /\ map fst (env st) = ten_names
    /\ Forall (fun f => read_cstring (fst f) st = Some (before_nul (snd f))
                        /\ non_null (fst f) st = true
                        /\ contains zero (before_nul (snd f)) = false
                        /\ String.prefix (before_nul (snd f)) (snd f) = true)
              (string_fields c)
    /\ read_int "mqtt_port" st
       = Some (wrap_signed (int_bits b) (c_mqtt_port c)).
Proof.
  destruct (permuted_reads b c _ (Permutation_refl _))
    as [st [Hinit [Hnames [Hstr Hint]]]].
  exists st.
  rewrite static_init_of_secrets_h.
  split; [exact Hinit |].
  split; [now rewrite Hnames |].
  split; [| exact Hint].
  rewrite Forall_forall in *.
  intros f Hf.
  split; [exact (Hstr f Hf) |].
  split; [exact (read_cstring_non_null _ _ _ (Hstr f Hf)) |].
  split; [apply before_nul_no_nul | apply before_nul_prefix].
Qed.

(** X3. [int] is too narrow for the upper half of the TCP ports when it
    has 16 bits: a port literal between 32768 and 65535 is accepted, but
    mqtt_port then reads as the literal minus 65536, a negative number
    outside the documented range. *)
Theorem port_wraps_on_16_bit_int (b : build) (c : config) :
  int_bits b = 16 ->
  32768 <= c_mqtt_port c <= 65535 ->
  exists st,
    static_init_of b (secrets_h c) = Ok st
    /\ read_int "mqtt_port" st = Some (c_mqtt_port c - 65536)
    /\ c_mqtt_port c - 65536 < 0
    /\ holds st "mqtt_port" SemInteger = false.
Proof.
  intros Hw Hport.
  destruct (permuted_reads b c _ (Permutation_refl _))
    as [st [Hinit [_ [_ Hint]]]].
  exists st.
  rewrite static_init_of_secrets_h.
  split; [exact Hinit |].
  rewrite Hw, (wrap_signed_16_high _ Hport) in Hint.
  split; [exact Hint |].
  split; [lia |].
  unfold holds.
  rewrite Hint.
  apply andb_false_iff.
  left.
  apply Z.leb_gt.
  lia.
Qed.

Lemma port_wraps_on_16_bit_int_witness :
  int_bits (Build 16 0) = 16
  /\ 32768
     <= c_mqtt_port (Config "h" "u" "p" "10.0.0.1" 40000 "s" "w" "t" "o" "d")
     <= 65535
  /\ exists st,
       static_init_of (Build 16 0)
         (secrets_h (Config "h" "u" "p" "10.0.0.1" 40000 "s" "w" "t" "o" "d"))
       = Ok st
       /\ read_int "mqtt_port" st
          = Some (c_mqtt_port
                    (Config "h" "u" "p" "10.0.0.1" 40000 "s" "w" "t" "o" "d")
                  - 65536)
       /\ c_mqtt_port
            (Config "h" "u" "p" "10.0.0.1" 40000 "s" "w" "t" "o" "d")
          - 65536 < 0
       /\ holds st "mqtt_port" SemInteger = false.
Proof.
  split; [reflexivity |].
  split; [cbn; lia |].
  apply (port_wraps_on_16_bit_int (Build 16 0)
           (Config "h" "u" "p" "10.0.0.1" 40000 "s" "w" "t" "o" "d")).
  - reflexivity.
  - cbn; lia.
Defined.

(** X4. [#pragma once] is what makes re-inclusion safe: however many
    times a translation unit includes the header, its text enters once;
    the same ten definitions without that line, included twice or more,
    are rejected at the second definition of hostname. *)
Theorem pragma_once_guards_reinclusion (b : build) (c : config) (n : nat) :
  include_times (S n) (secrets_h c) = secrets_h c
  /\ var_defs (tl (secrets_h c)) = var_defs (secrets_h c)
  /\ has_pragma_once (tl (secrets_h c)) = false
  /\ define_all b (var_defs (include_times (S (S n)) (tl (secrets_h c))))
                empty_state
     = Err (Redefinition "hostname").
Proof.
  split; [apply include_once; reflexivity |].
  split; [reflexivity |].
  split; [reflexivity |].
  destruct b as [w k].
  reflexivity.
Qed.


(** X6. The order of the ten definitions is irrelevant: written in any
    order they are accepted, and every string and the port read back the
    same as from the header in its own order. *)
Theorem definition_order_irrelevant (b : build) (c : config)
    (ds : list var_def) :
  Permutation ds (var_defs (secrets_h c)) ->
  exists st0 st,
    static_init_of b (secrets_h c) = Ok st0
    /\ define_all b ds empty_state = Ok st
    /\ map fst (env st) = map vd_name ds
    /\ Forall (fun x => read_cstring x st = read_cstring x st0) nine_names
    /\ read_int "mqtt_port" st = read_int "mqtt_port" st0.
Proof.
  intros Hperm.
  destruct (permuted_reads b c _ (Permutation_refl _))
    as [st0 [Hinit0 [_ [Hstr0 Hint0]]]].
  destruct (permuted_reads b c ds Hperm) as [st [Hinit [Hn [Hstr Hint]]]].
  exists st0, st.
  rewrite static_init_of_secrets_h.
  split; [exact Hinit0 |].
  split; [exact Hinit |].
  split; [exact Hn |].
  split; [| now rewrite Hint, Hint0].
  change nine_names with (map fst (string_fields c)).
  apply Forall_map.
  rewrite Forall_forall in *.
  intros f Hf.
  now rewrite (Hstr f Hf), (Hstr0 f Hf).
Qed.

Lemma definition_order_irrelevant_witness :
  Permutation (rev (var_defs (secrets_h template)))
              (var_defs (secrets_h template))
  /\ exists st0 st,
       static_init_of esp_build (secrets_h template) = Ok st0
       /\ define_all esp_build (rev (var_defs (secrets_h template)))
                     empty_state = Ok st
       /\ map fst (env st)
          = map vd_name (rev (var_defs (secrets_h template)))
       /\ Forall (fun x => read_cstring x st = read_cstring x st0) nine_names
       /\ read_int "mqtt_port" st = read_int "mqtt_port" st0.
Proof.
  assert (H : Permutation (rev (var_defs (secrets_h template)))
                          (var_defs (secrets_h template)))
    by (apply Permutation_sym, Permutation_rev).
  exact (conj H (definition_order_irrelevant esp_build template _ H)).
Defined.

(** * Mutation at run time *)




